(** * HeapAudioBuffer: a WASM-heap wrapper for multi-channel audio buffers

    Shallow embedding of [src/wasm-audio-helper.ts] and the properties of its
    allocation, view slicing, channel adaptation and release.

    Conventions of the model.
    - A JavaScript [number] is modelled by an integer of [Z]: the arguments
      the class is meant for (frame lengths, channel counts, byte offsets)
      are integers, and on integers below 2^53 the arithmetic of the source
      ([*], [+], [<], [>=], [Math.min]) is exact.  The only operator with a
      fixed width is [>>], whose 32-bit conversion is written out.
    - An optional argument is an [option]: [None] is [undefined].
    - [null] of a [number | null] getter is [None].
    - The Emscripten module is shared mutable state: it lives in the [World]
      next to the object, and every method is a computation over the
      [World].  The module records each [_malloc] and [_free] it receives. *)

From stdpp Require Import base list numbers.
From Stdlib Require Import ZArith Lia.

Local Open Scope Z_scope.

(** ** Module constants (lines 22-32) *)

(** Byte per audio sample: [Float32Array.BYTES_PER_ELEMENT]. *)
Definition BYTES_PER_SAMPLE : Z := 4.

(** Basic byte unit of the WASM heap: [Uint16Array.BYTES_PER_ELEMENT]. *)
Definition BYTES_PER_UNIT : Z := 2.

Definition MAX_CHANNEL_COUNT : Z := 32.

Definition RENDER_QUANTUM_FRAMES : Z := 128.

(** ** The JavaScript operations the class relies on *)

Module JS.

(** [ToInt32]: reduction modulo 2^32 into the signed range. *)
Definition ToInt32 (x : Z) : Z := (x + 2 ^ 31) mod 2 ^ 32 - 2 ^ 31.

(** [x >> k]: signed right shift of the 32-bit conversion of [x], by the low
    five bits of [k]. *)
Definition sar (x k : Z) : Z := Z.shiftr (ToInt32 x) (Z.land k 31).

(** Truthiness of a number ([NaN] is outside the model): only [0] is falsy. *)
Definition truthy (x : Z) : bool := negb (x =? 0).

(** Truthiness of an optional number: [undefined] is falsy. *)
Definition truthy_opt (x : option Z) : bool :=
  match x with
  | Some n => truthy n
  | None => false
  end.

(** A [Float32Array] over the module's memory buffer: where it starts, in
    bytes, and how many 32-bit elements it has. *)
Record Float32Array : Type := mkFloat32Array {
  byteOffset : Z;
  elements : Z
}.

(** The clamping of a relative index of [subarray]: negative indices count
    from the end. *)
Definition relative_index (srcLength rel : Z) : Z :=
  if rel <? 0 then Z.max (srcLength + rel) 0 else Z.min rel srcLength.

(** [%TypedArray%.prototype.subarray(begin, end)] for an element size of
    four bytes. *)
Definition subarray (src : Float32Array) (begin end_ : Z) : Float32Array :=
  let srcLength := elements src in
  let beginIndex := relative_index srcLength begin in
  let endIndex := relative_index srcLength end_ in
  let newLength := Z.max (endIndex - beginIndex) 0 in
  {| byteOffset := byteOffset src + beginIndex * 4; elements := newLength |}.

(** The half-open byte range a view covers. *)
Definition byte_start (v : Float32Array) : Z := byteOffset v.
Definition byte_end (v : Float32Array) : Z := byteOffset v + elements v * 4.

(** A JavaScript array: a list of slots, [None] being a hole. *)
Abbreviation array A := (list (option A)) (only parsing).

(** [a[i]]: [None] is [undefined] (hole, out of range or negative index). *)
Definition array_get {A : Type} (a : array A) (i : Z) : option A :=
  if i <? 0 then None else mjoin (a !! Z.to_nat i).

(** [a[i] = v]: overwrites inside, appends at the end, extends with holes
    beyond it; a negative index is not an element. *)
Definition array_set {A : Type} (a : array A) (i : Z) (v : A) : array A :=
  if i <? 0 then a
  else if (Z.to_nat i <? length a)%nat then <[Z.to_nat i := Some v]> a
  else a ++ replicate (Z.to_nat i - length a)%nat None ++ [Some v].

End JS.

Export JS.

(** ** The memory owner *)

(** A call received by the module. *)
Inductive HeapCall : Type :=
| Malloc (size : Z)
| Free (ptr : Z).

(** The Emscripten module, as far as the class uses it: the size of its
    memory in 32-bit elements, the answer of its allocator (any function of the calls
    received so far and of the requested size), and the calls received. *)
Record EmscriptenModule : Type := mkModule {
  heap_elements : Z;
  allocator : list HeapCall -> Z -> Z;
  calls : list HeapCall
}.

(** [HEAPF32] is [new Float32Array(memory.buffer)]: the whole memory, from
    byte 0. *)
Definition HEAPF32 (m : EmscriptenModule) : Float32Array :=
  {| byteOffset := 0; elements := heap_elements m |}.

Definition record_call (m : EmscriptenModule) (c : HeapCall) : EmscriptenModule :=
  {| heap_elements := heap_elements m; allocator := allocator m;
     calls := calls m ++ [c] |}.

(** The sizes of the allocations requested so far, in order. *)
Definition malloc_sizes (l : list HeapCall) : list Z :=
  omap (fun c => match c with Malloc n => Some n | Free _ => None end) l.

(** The offsets released so far, in order. *)
Definition freed_ptrs (l : list HeapCall) : list Z :=
  omap (fun c => match c with Free p => Some p | Malloc _ => None end) l.

(** ** The object (lines 41-48) *)

Record HeapAudioBuffer : Type := mkHeapAudioBuffer {
  _channelCount : Z;
  _channelData : array Float32Array;
  _dataPtr : Z;
  _isInitialized : bool;
  _length : Z;
  _maxChannelCount : Z
}.

(** The object and the module its [_module] field refers to. *)
Record World : Type := mkWorld {
  _module : EmscriptenModule;
  this : HeapAudioBuffer
}.

(** ** Computations over the world *)

Definition M (A : Type) : Type := World -> A * World.

Definition ret {A : Type} (a : A) : M A := fun w => (a, w).

Definition bind {A B : Type} (c : M A) (k : A -> M B) : M B :=
  fun w => let (a, w') := c w in k a w'.

Declare Scope heap_scope.
Delimit Scope heap_scope with heap.
Notation "'let*' x ':=' c 'in' k" := (bind c (fun x => k))
  (at level 10, x name, c at level 100, k at level 200) : heap_scope.
Notation "c ';;' k" := (bind c (fun _ => k))
  (at level 100, k at level 200, right associativity) : heap_scope.

Local Open Scope heap_scope.

(** Field reads and writes of [this]. *)
Definition read {A : Type} (field : HeapAudioBuffer -> A) : M A :=
  fun w => (field (this w), w).

Definition update (f : HeapAudioBuffer -> HeapAudioBuffer) : M unit :=
  fun w => (tt, {| _module := _module w; this := f (this w) |}).

Definition set_channelCount (n : Z) (o : HeapAudioBuffer) : HeapAudioBuffer :=
  {| _channelCount := n; _channelData := _channelData o; _dataPtr := _dataPtr o;
     _isInitialized := _isInitialized o; _length := _length o;
     _maxChannelCount := _maxChannelCount o |}.

Definition set_channelData (d : array Float32Array) (o : HeapAudioBuffer) : HeapAudioBuffer :=
  {| _channelCount := _channelCount o; _channelData := d; _dataPtr := _dataPtr o;
     _isInitialized := _isInitialized o; _length := _length o;
     _maxChannelCount := _maxChannelCount o |}.

Definition set_dataPtr (p : Z) (o : HeapAudioBuffer) : HeapAudioBuffer :=
  {| _channelCount := _channelCount o; _channelData := _channelData o; _dataPtr := p;
     _isInitialized := _isInitialized o; _length := _length o;
     _maxChannelCount := _maxChannelCount o |}.

Definition set_isInitialized (b : bool) (o : HeapAudioBuffer) : HeapAudioBuffer :=
  {| _channelCount := _channelCount o; _channelData := _channelData o; _dataPtr := _dataPtr o;
     _isInitialized := b; _length := _length o;
     _maxChannelCount := _maxChannelCount o |}.

(** [this._module._malloc(size)]: the module records the call and answers
    with an offset of its choice. *)
Definition _malloc (size : Z) : M Z :=
  fun w =>
    let m := _module w in
    (allocator m (calls m) size,
     {| _module := record_call m (Malloc size); this := this w |}).

(** [this._module._free(ptr)]. *)
Definition _free (ptr : Z) : M unit :=
  fun w => (tt, {| _module := record_call (_module w) (Free ptr); this := this w |}).

(** [this._module.HEAPF32]. *)
Definition heapF32 : M Float32Array := fun w => (HEAPF32 (_module w), w).

(** ** Methods *)

(** The body of the loop of [_allocateHeap] (lines 86-94), from index [i];
    [fuel] bounds the number of iterations. *)
Fixpoint _allocateHeap_loop (fuel : nat) (dataPtr channelByteSize i : Z) : M unit :=
  match fuel with
  | O => ret tt
  | S fuel' =>
      let* channelCount := read _channelCount in
      if i <? channelCount then
        let startByteOffset := dataPtr + i * channelByteSize in
        let endByteOffset := startByteOffset + channelByteSize in
        let* heap := heapF32 in
        let* data := read _channelData in
        update (set_channelData
                  (array_set data i
                     (subarray heap (sar startByteOffset BYTES_PER_UNIT)
                                    (sar endByteOffset BYTES_PER_UNIT)))) ;;
        _allocateHeap_loop fuel' dataPtr channelByteSize (i + 1)
      else ret tt
  end.

(** [_allocateHeap] (lines 81-96).  The loop runs [_channelCount] times at
    most, which is the fuel it is given. *)
Definition _allocateHeap : M Z :=
  let* length := read _length in
  let channelByteSize := length * BYTES_PER_SAMPLE in
  let* channelCount := read _channelCount in
  let dataByteSize := channelCount * channelByteSize in
  let* dataPtr := _malloc dataByteSize in
  update (set_channelData []) ;;
  _allocateHeap_loop (Z.to_nat channelCount) dataPtr channelByteSize 0 ;;
  ret dataPtr.

(** The capacity the constructor resolves (lines 67-69): the truthiness of
    the optional argument decides. *)
Definition resolve_maxChannelCount (channelCount : Z) (maxChannelCount : option Z) : Z :=
  match maxChannelCount with
  | Some mc => if truthy mc then Z.min mc MAX_CHANNEL_COUNT else channelCount
  | None => channelCount
  end.

(** The constructor (lines 57-72), on a module [wasmModule].  [_dataPtr] has
    no value until line 71 assigns it; [_allocateHeap] does not read it, and
    the model gives it [0] until then. *)
Definition constructor (wasmModule : EmscriptenModule) (length channelCount : Z)
    (maxChannelCount : option Z) : World :=
  let fresh :=
    {| _channelCount := channelCount;
       _channelData := [];
       _dataPtr := 0;
       _isInitialized := true;
       _length := length;
       _maxChannelCount := resolve_maxChannelCount channelCount maxChannelCount |} in
  let (dataPtr, w) := _allocateHeap {| _module := wasmModule; this := fresh |} in
  snd (update (set_dataPtr dataPtr) w).

(** [adaptChannel] (lines 103-107). *)
Definition adaptChannel (newChannelCount : Z) : M unit :=
  let* maxChannelCount := read _maxChannelCount in
  if newChannelCount <? maxChannelCount
  then update (set_channelCount newChannelCount)
  else ret tt.

(** The getters (lines 114-134). *)
Definition get_length : M (option Z) :=
  let* init := read _isInitialized in
  if init then (let* n := read _length in ret (Some n)) else ret None.

Definition get_numberOfChannels : M (option Z) :=
  let* init := read _isInitialized in
  if init then (let* n := read _channelCount in ret (Some n)) else ret None.

Definition get_maxChannelCount : M (option Z) :=
  let* init := read _isInitialized in
  if init then (let* n := read _maxChannelCount in ret (Some n)) else ret None.

(** What [getChannelData] returns: the whole array, one view, or
    [undefined]. *)
Inductive ChannelData : Type :=
| AllChannels (data : array Float32Array)
| Channel (view : Float32Array)
| Undefined.

(** [getChannelData] (lines 146-154). *)
Definition getChannelData (channelIndex : option Z) : M ChannelData :=
  let* channelCount := read _channelCount in
  let* data := read _channelData in
  match channelIndex with
  | Some i =>
      if truthy i && (i >=? channelCount) then ret Undefined
      else match array_get data i with
           | Some view => ret (Channel view)
           | None => ret Undefined
           end
  | None => ret (AllChannels data)
  end.

(** [getHeapAddress] and [getPointer] (lines 161-172). *)
Definition getHeapAddress : M Z := read _dataPtr.

Definition getPointer : M Z := read _dataPtr.

(** [free] (lines 177-181). *)
Definition free : M unit :=
  update (set_isInitialized false) ;;
  let* dataPtr := read _dataPtr in
  _free dataPtr ;;
  update (set_channelData []).

(** ** Auxiliary definitions for the statements *)

(** The view the loop of [_allocateHeap] computes for channel [i]. *)
Definition channel_view (m : EmscriptenModule) (dataPtr channelByteSize i : Z)
    : Float32Array :=
  subarray (HEAPF32 m)
    (sar (dataPtr + i * channelByteSize) BYTES_PER_UNIT)
    (sar (dataPtr + i * channelByteSize + channelByteSize) BYTES_PER_UNIT).

(** The views of channels [0 .. n-1]. *)
Definition channel_views (m : EmscriptenModule) (dataPtr channelByteSize n : Z)
    : array Float32Array :=
  (fun i => Some (channel_view m dataPtr channelByteSize i)) <$> seqZ 0 n.

(** The offset the module answers to the constructor's request. *)
Definition constructed_ptr (m : EmscriptenModule) (length channelCount : Z) : Z :=
  allocator m (calls m) (channelCount * (length * BYTES_PER_SAMPLE)).

(** The calls a client can make on a constructed instance ([_allocateHeap]
    is marked private: the constructor alone calls it). *)
Inductive Op : Type :=
| OpAdaptChannel (newChannelCount : Z)
| OpLength
| OpNumberOfChannels
| OpMaxChannelCount
| OpGetChannelData (channelIndex : option Z)
| OpGetHeapAddress
| OpGetPointer
| OpFree.

Definition step (w : World) (op : Op) : World :=
  match op with
  | OpAdaptChannel n => snd (adaptChannel n w)
  | OpLength => snd (get_length w)
  | OpNumberOfChannels => snd (get_numberOfChannels w)
  | OpMaxChannelCount => snd (get_maxChannelCount w)
  | OpGetChannelData i => snd (getChannelData i w)
  | OpGetHeapAddress => snd (getHeapAddress w)
  | OpGetPointer => snd (getPointer w)
  | OpFree => snd (free w)
  end.

(** The state after a sequence of calls. *)
Definition run (ops : list Op) (w : World) : World := fold_left step ops w.

Definition is_adapt (op : Op) : bool :=
  match op with OpAdaptChannel _ => true | _ => false end.

(** Two half-open byte ranges do not overlap. *)
Definition disjoint_views (v1 v2 : Float32Array) : Prop :=
  byte_end v1 <= byte_start v2 \/ byte_end v2 <= byte_start v1.

(** A module with 64 Ki elements of memory whose allocator answers 1024. *)
Definition sample_module : EmscriptenModule :=
  {| heap_elements := 65536; allocator := fun _ _ => 1024; calls := [] |}.

(** A module whose allocator answers an offset that is not a multiple of
    four. *)
Definition unaligned_module : EmscriptenModule :=
  {| heap_elements := 65536; allocator := fun _ _ => 2; calls := [] |}.

(** A module with 3 GiB of memory whose allocator answers an offset at
    2^31. *)
Definition large_module : EmscriptenModule :=
  {| heap_elements := 3 * 2 ^ 28; allocator := fun _ _ => 2 ^ 31; calls := [] |}.

(** The calls that read and do not write: the getters, [getChannelData] and
    the two base-address accessors. *)
Definition is_query (op : Op) : bool :=
  match op with
  | OpAdaptChannel _ | OpFree => false
  | _ => true
  end.

(** The number of [free] calls in a sequence of calls. *)
Fixpoint free_count (ops : list Op) : nat :=
  match ops with
  | [] => O
  | OpFree :: ops' => S (free_count ops')
  | _ :: ops' => free_count ops'
  end.

(** The bytes the views of a sequence cover, holes counting for none. *)
Fixpoint total_view_bytes (a : array Float32Array) : Z :=
  match a with
  | [] => 0
  | Some v :: a' => elements v * 4 + total_view_bytes a'
  | None :: a' => total_view_bytes a'
  end.

(** * Properties *)

(** ** The operations of JavaScript *)

Lemma ToInt32_small (x : Z) : - 2 ^ 31 <= x < 2 ^ 31 -> ToInt32 x = x.
Proof.
  intros Hx. unfold ToInt32.
  rewrite Z.mod_small by lia. lia.
Qed.

Lemma sar_unit (x : Z) :
  - 2 ^ 31 <= x < 2 ^ 31 -> sar x BYTES_PER_UNIT = x / 4.
Proof.
  intros Hx. unfold sar, BYTES_PER_UNIT.
  rewrite ToInt32_small by exact Hx.
  change (Z.land 2 31) with 2.
  rewrite Z.shiftr_div_pow2 by lia. reflexivity.
Qed.

Lemma array_get_nil {A : Type} (i : Z) : array_get ([] : array A) i = None.
Proof. unfold array_get. destruct (i <? 0); reflexivity. Qed.

(** ** The loop of [_allocateHeap] *)

Lemma world_eta (w : World) : {| _module := _module w; this := this w |} = w.
Proof. destruct w; reflexivity. Qed.

Lemma set_channelData_same (o : HeapAudioBuffer) :
  set_channelData (_channelData o) o = o.
Proof. destruct o; reflexivity. Qed.

Lemma _allocateHeap_loop_spec (fuel : nat) (p cbs : Z) :
  forall (i : Z) (w : World),
    0 <= i ->
    length (_channelData (this w)) = Z.to_nat i ->
    (Z.to_nat (_channelCount (this w) - i) <= fuel)%nat ->
    _allocateHeap_loop fuel p cbs i w =
    (tt, {| _module := _module w;
            this := set_channelData
                      (_channelData (this w) ++
                       ((fun k => Some (channel_view (_module w) p cbs k))
                          <$> seqZ i (_channelCount (this w) - i)))
                      (this w) |}).
Proof.
  induction fuel as [|fuel IH]; intros i w Hi Hlen Hfuel.
  - simpl. rewrite seqZ_nil by lia. simpl. rewrite app_nil_r.
    rewrite set_channelData_same, world_eta. reflexivity.
  - simpl. unfold bind at 1. unfold read at 1. simpl.
    destruct (Z.ltb_spec i (_channelCount (this w))) as [Hlt|Hge].
    + unfold bind, heapF32, read, update. simpl.
      rewrite IH; simpl; try lia.
      * f_equal. f_equal.
        unfold array_set.
        destruct (Z.ltb_spec i 0) as [?|_]; [lia|].
        rewrite Hlen, Nat.ltb_irrefl, Nat.sub_diag. simpl.
        rewrite (seqZ_cons i) by lia. simpl.
        rewrite <- app_assoc. simpl.
        unfold set_channelData. simpl.
        replace (Z.succ i) with (i + 1) by lia.
        replace (Z.pred (_channelCount (this w) - i))
          with (_channelCount (this w) - (i + 1)) by lia.
        reflexivity.
      * unfold array_set.
        destruct (Z.ltb_spec i 0) as [?|_]; [lia|].
        rewrite Hlen, Nat.ltb_irrefl, Nat.sub_diag. simpl.
        rewrite length_app. simpl. lia.
    + rewrite seqZ_nil by lia. simpl. rewrite app_nil_r.
      unfold ret. rewrite set_channelData_same, world_eta. reflexivity.
Qed.

(** The loop leaves by its own guard: any larger fuel gives the same
    result. *)
Lemma _allocateHeap_loop_fuel (fuel : nat) (p cbs : Z) (w : World) :
  _channelData (this w) = [] ->
  (Z.to_nat (_channelCount (this w)) <= fuel)%nat ->
  _allocateHeap_loop fuel p cbs 0 w =
  _allocateHeap_loop (Z.to_nat (_channelCount (this w))) p cbs 0 w.
Proof.
  intros Hnil Hfuel.
  rewrite !_allocateHeap_loop_spec; rewrite ?Hnil, ?Z.sub_0_r; simpl; auto; lia.
Qed.

(** ** The constructor *)

Lemma constructor_spec (m : EmscriptenModule) (L cc : Z) (mc : option Z) :
  constructor m L cc mc =
  {| _module := record_call m (Malloc (cc * (L * BYTES_PER_SAMPLE)));
     this :=
       {| _channelCount := cc;
          _channelData :=
            channel_views m (constructed_ptr m L cc) (L * BYTES_PER_SAMPLE) cc;
          _dataPtr := constructed_ptr m L cc;
          _isInitialized := true;
          _length := L;
          _maxChannelCount := resolve_maxChannelCount cc mc |} |}.
Proof.
  unfold constructor, _allocateHeap.
  unfold bind at 1. unfold read at 1. cbn [this _length].
  unfold bind at 1. unfold read at 1. cbn [this _channelCount].
  unfold bind at 1. unfold _malloc at 1. cbn [_module this].
  unfold bind at 1. unfold update at 1. cbn [_module this].
  unfold bind at 1.
  rewrite _allocateHeap_loop_spec; cbn; try lia.
  rewrite Z.sub_0_r. reflexivity.
Qed.

Lemma length_channel_views (m : EmscriptenModule) (p cbs n : Z) :
  length (channel_views m p cbs n) = Z.to_nat n.
Proof. unfold channel_views. rewrite length_fmap, length_seqZ. reflexivity. Qed.

Lemma array_get_channel_views (m : EmscriptenModule) (p cbs n i : Z) :
  array_get (channel_views m p cbs n) i =
  if (0 <=? i) && (i <? n) then Some (channel_view m p cbs i) else None.
Proof.
  unfold array_get, channel_views.
  destruct (Z.ltb_spec i 0) as [Hneg|Hpos].
  - destruct (Z.leb_spec 0 i); [lia|]. reflexivity.
  - destruct (Z.leb_spec 0 i); [|lia]. simpl.
    rewrite list_lookup_fmap.
    destruct (Z.ltb_spec i n) as [Hlt|Hge].
    + rewrite (lookup_seqZ_lt 0 n (Z.to_nat i)) by lia. simpl.
      do 2 f_equal. lia.
    + rewrite (lookup_seqZ_ge 0 n (Z.to_nat i)) by lia. reflexivity.
Qed.

(** ** What a call changes *)

Ltac exec :=
  unfold step, adaptChannel, get_length, get_numberOfChannels,
    get_maxChannelCount, getChannelData, getHeapAddress, getPointer, free,
    _free, bind, read, update, ret;
  cbn.

Lemma malloc_sizes_free (l : list HeapCall) (p : Z) :
  malloc_sizes (l ++ [Free p]) = malloc_sizes l.
Proof. unfold malloc_sizes. rewrite omap_app. cbn. apply app_nil_r. Qed.

(** No call resizes or moves the allocation: frame length, capacity, base
    offset and the allocations requested from the module stay as they
    are. *)
Lemma step_fixed (w : World) (op : Op) :
  _length (this (step w op)) = _length (this w) /\
  _maxChannelCount (this (step w op)) = _maxChannelCount (this w) /\
  _dataPtr (this (step w op)) = _dataPtr (this w) /\
  malloc_sizes (calls (_module (step w op))) = malloc_sizes (calls (_module w)).
Proof.
  destruct op; exec; repeat case_match; cbn;
    rewrite ?malloc_sizes_free; auto.
Qed.

Lemma step_channelCount (w : World) (op : Op) :
  _channelCount (this (step w op)) =
  match op with
  | OpAdaptChannel n =>
      if n <? _maxChannelCount (this w) then n else _channelCount (this w)
  | _ => _channelCount (this w)
  end.
Proof. destruct op; exec; repeat case_match; cbn; congruence. Qed.

Lemma step_isInitialized (w : World) (op : Op) :
  _isInitialized (this (step w op)) =
  match op with
  | OpFree => false
  | _ => _isInitialized (this w)
  end.
Proof. destruct op; exec; repeat case_match; cbn; congruence. Qed.

Lemma step_channelData (w : World) (op : Op) :
  _channelData (this (step w op)) =
  match op with
  | OpFree => []
  | _ => _channelData (this w)
  end.
Proof. destruct op; exec; repeat case_match; cbn; congruence. Qed.

Lemma run_snoc (ops : list Op) (op : Op) (w : World) :
  run (ops ++ [op]) w = step (run ops w) op.
Proof. unfold run. rewrite fold_left_app. reflexivity. Qed.

Lemma run_fixed (ops : list Op) (w : World) :
  _length (this (run ops w)) = _length (this w) /\
  _maxChannelCount (this (run ops w)) = _maxChannelCount (this w) /\
  _dataPtr (this (run ops w)) = _dataPtr (this w) /\
  malloc_sizes (calls (_module (run ops w))) = malloc_sizes (calls (_module w)).
Proof.
  induction ops as [|op ops IH] using rev_ind; [auto|].
  rewrite run_snoc.
  destruct (step_fixed (run ops w) op) as (H1 & H2 & H3 & H4).
  destruct IH as (I1 & I2 & I3 & I4).
  repeat split; congruence.
Qed.

(** The views live as long as the instance is initialized, and are gone
    afterwards. *)
Lemma run_channelData (ops : list Op) (w : World) (d : array Float32Array) :
  _channelData (this w) = (if _isInitialized (this w) then d else []) ->
  _channelData (this (run ops w)) =
  (if _isInitialized (this (run ops w)) then d else []).
Proof.
  intros Hw.
  induction ops as [|op ops IH] using rev_ind; [exact Hw|].
  rewrite run_snoc, step_channelData, step_isInitialized.
  destruct op; auto.
Qed.

(** Once released, released for ever. *)
Lemma run_released (ops : list Op) (w : World) :
  _isInitialized (this w) = false ->
  _isInitialized (this (run ops w)) = false.
Proof.
  intros Hw.
  induction ops as [|op ops IH] using rev_ind; [exact Hw|].
  rewrite run_snoc, step_isInitialized.
  destruct op; auto.
Qed.

(** The active count stays at or below the capacity once it is. *)
Lemma run_channelCount_le (ops : list Op) (w : World) :
  _channelCount (this w) <= _maxChannelCount (this w) ->
  _channelCount (this (run ops w)) <= _maxChannelCount (this (run ops w)).
Proof.
  intros Hw.
  induction ops as [|op ops IH] using rev_ind; [exact Hw|].
  rewrite run_snoc.
  destruct (step_fixed (run ops w) op) as (_ & Hmax & _).
  rewrite Hmax, step_channelCount.
  destruct op; auto.
  destruct (Z.ltb_spec newChannelCount (_maxChannelCount (this (run ops w)))); lia.
Qed.

(** [adaptChannel] writes the active count and nothing else. *)
Lemma adaptChannel_frame (w : World) (n : Z) :
  _module (snd (adaptChannel n w)) = _module w /\
  _length (this (snd (adaptChannel n w))) = _length (this w) /\
  _maxChannelCount (this (snd (adaptChannel n w))) = _maxChannelCount (this w) /\
  _dataPtr (this (snd (adaptChannel n w))) = _dataPtr (this w) /\
  _isInitialized (this (snd (adaptChannel n w))) = _isInitialized (this w) /\
  _channelData (this (snd (adaptChannel n w))) = _channelData (this w).
Proof.
  exec.
  destruct (n <? _maxChannelCount (this w)); cbn; repeat split; reflexivity.
Qed.

(** The views of an instance that is still initialized are those its
    constructor built. *)
Lemma run_constructor_channelData (m : EmscriptenModule) (L cc : Z)
    (mc : option Z) (ops : list Op) :
  _isInitialized (this (run ops (constructor m L cc mc))) = true ->
  _channelData (this (run ops (constructor m L cc mc))) =
  channel_views m (constructed_ptr m L cc) (L * BYTES_PER_SAMPLE) cc.
Proof.
  intros Hinit.
  rewrite (run_channelData ops (constructor m L cc mc)
             (channel_views m (constructed_ptr m L cc) (L * BYTES_PER_SAMPLE) cc)).
  - rewrite Hinit. reflexivity.
  - rewrite constructor_spec. reflexivity.
Qed.

(** ** Allocation *)

(** C1, as stated, fails: with two requested channels and a capacity
    clamped to 32, a frame length of 128 makes the constructor request
    2 * 128 * 4 = 1024 bytes, not 32 * 128 * 4. *)
Lemma C1_counterexample :
  _maxChannelCount (this (constructor sample_module 128 2 (Some 40))) = 32 /\
  malloc_sizes (calls (_module (constructor sample_module 128 2 (Some 40)))) = [1024] /\
  malloc_sizes (calls (_module (constructor sample_module 128 2 (Some 40)))) <>
  [_maxChannelCount (this (constructor sample_module 128 2 (Some 40))) * 128 * 4].
Proof. vm_compute. repeat split; discriminate. Qed.

(** C1, amended: the constructor sends the module exactly one request, of
    [channelCount * length * 4] bytes, where [channelCount] is the requested
    number of channels; no later call on the instance requests memory
    again, so the allocation is never resized. *)
Theorem C1_allocation_size (m : EmscriptenModule) (L cc : Z) (mc : option Z)
    (ops : list Op) :
  calls (_module (constructor m L cc mc)) = calls m ++ [Malloc (cc * L * 4)] /\
  malloc_sizes (calls (_module (run ops (constructor m L cc mc)))) =
  malloc_sizes (calls m) ++ [cc * L * 4].
Proof.
  destruct (run_fixed ops (constructor m L cc mc)) as (_ & _ & _ & Hm).
  rewrite Hm, constructor_spec. cbn [_module record_call calls].
  unfold malloc_sizes. rewrite omap_app. cbn. unfold BYTES_PER_SAMPLE.
  replace (cc * (L * 4)) with (cc * L * 4) by lia. split; reflexivity.
Qed.

(** C2, as stated, fails: the same construction has capacity 32 and builds
    two views, which is what the form without argument returns; and [free]
    replaces the sequence by an empty one. *)
Lemma C2_counterexample :
  _maxChannelCount (this (constructor sample_module 128 2 (Some 40))) = 32 /\
  fst (getChannelData None (constructor sample_module 128 2 (Some 40))) =
    AllChannels [Some {| byteOffset := 1024; elements := 128 |};
                 Some {| byteOffset := 1536; elements := 128 |}] /\
  length (_channelData (this (constructor sample_module 128 2 (Some 40)))) <>
    Z.to_nat (_maxChannelCount (this (constructor sample_module 128 2 (Some 40)))) /\
  _channelData (this (run [OpFree] (constructor sample_module 128 2 (Some 40)))) = [].
Proof. vm_compute. repeat split; discriminate. Qed.

(** C2, amended: the constructor builds one view per requested channel
    ([channelCount] of them, none when that is not positive); as long as the
    instance is initialized no call changes the sequence, and [free]
    empties it; [getChannelData()] returns the sequence as it is. *)
Theorem C2_channel_views (m : EmscriptenModule) (L cc : Z) (mc : option Z)
    (ops : list Op) :
  _channelData (this (constructor m L cc mc)) =
    channel_views m (constructed_ptr m L cc) (L * BYTES_PER_SAMPLE) cc /\
  length (_channelData (this (constructor m L cc mc))) = Z.to_nat cc /\
  _channelData (this (run ops (constructor m L cc mc))) =
    (if _isInitialized (this (run ops (constructor m L cc mc)))
     then _channelData (this (constructor m L cc mc)) else []) /\
  fst (getChannelData None (run ops (constructor m L cc mc))) =
    AllChannels (_channelData (this (run ops (constructor m L cc mc)))).
Proof.
  split; [rewrite constructor_spec; reflexivity|].
  split; [rewrite constructor_spec; apply length_channel_views|].
  split; [|reflexivity].
  apply run_channelData. rewrite constructor_spec. reflexivity.
Qed.

(** ** Capacity and active count *)

(** C3, as stated, fails in each of its parts on an initialized instance:
    adaptation raises the active count (1 to 3), adaptation brings it to 0,
    a construction without [maxChannelCount] has a capacity above 32, and a
    construction with [maxChannelCount] below [channelCount] starts above
    its capacity. *)
Lemma C3_counterexample :
  (_isInitialized (this (run [OpAdaptChannel 3] (constructor sample_module 128 1 (Some 4)))) = true /\
   _channelCount (this (constructor sample_module 128 1 (Some 4))) = 1 /\
   _channelCount (this (run [OpAdaptChannel 3] (constructor sample_module 128 1 (Some 4)))) = 3) /\
  (_isInitialized (this (run [OpAdaptChannel 0] (constructor sample_module 128 1 (Some 4)))) = true /\
   ~ 0 < _channelCount (this (run [OpAdaptChannel 0] (constructor sample_module 128 1 (Some 4))))) /\
  ~ _maxChannelCount (this (constructor sample_module 128 40 None)) <= 32 /\
  ~ _channelCount (this (constructor sample_module 128 5 (Some 2))) <=
    _maxChannelCount (this (constructor sample_module 128 5 (Some 2))).
Proof. vm_compute. repeat split; intros H; discriminate H || (apply H; reflexivity). Qed.

(** C3, amended: for an instance constructed with a channel count at or below
    the capacity it resolves, the active count is at or below the capacity in
    every reachable state; the capacity never changes, and it is at most 32
    whenever a non-zero [maxChannelCount] was given; the active count changes
    through [adaptChannel] only. *)
Theorem C3_capacity_invariant (m : EmscriptenModule) (L cc : Z) (mc : option Z)
    (ops : list Op) :
  cc <= resolve_maxChannelCount cc mc ->
  _channelCount (this (run ops (constructor m L cc mc))) <=
    _maxChannelCount (this (run ops (constructor m L cc mc))) /\
  _maxChannelCount (this (run ops (constructor m L cc mc))) =
    resolve_maxChannelCount cc mc /\
  (truthy_opt mc = true ->
   _maxChannelCount (this (run ops (constructor m L cc mc))) <= MAX_CHANNEL_COUNT) /\
  (forall (w : World) (op : Op),
     is_adapt op = false ->
     _channelCount (this (step w op)) = _channelCount (this w)).
Proof.
  intros Hcc.
  destruct (run_fixed ops (constructor m L cc mc)) as (_ & Hmax & _).
  assert (Hres : _maxChannelCount (this (run ops (constructor m L cc mc))) =
                 resolve_maxChannelCount cc mc).
  { rewrite Hmax, constructor_spec. reflexivity. }
  split; [|split; [exact Hres|split]].
  - apply run_channelCount_le. rewrite constructor_spec. exact Hcc.
  - rewrite Hres. destruct mc as [k|]; [|discriminate].
    cbn. intros ->. apply Z.le_min_r.
  - intros w op Hop. rewrite step_channelCount.
    destruct op; [discriminate Hop| reflexivity ..].
Qed.

Lemma C3_capacity_invariant_witness :
  2 <= resolve_maxChannelCount 2 (Some 40) /\
  (_channelCount (this (run [OpAdaptChannel 1; OpGetPointer]
                          (constructor sample_module 128 2 (Some 40)))) <=
     _maxChannelCount (this (run [OpAdaptChannel 1; OpGetPointer]
                               (constructor sample_module 128 2 (Some 40)))) /\
   _maxChannelCount (this (run [OpAdaptChannel 1; OpGetPointer]
                             (constructor sample_module 128 2 (Some 40)))) =
     resolve_maxChannelCount 2 (Some 40) /\
   (truthy_opt (Some 40) = true ->
    _maxChannelCount (this (run [OpAdaptChannel 1; OpGetPointer]
                              (constructor sample_module 128 2 (Some 40)))) <=
      MAX_CHANNEL_COUNT) /\
   (forall (w : World) (op : Op),
      is_adapt op = false ->
      _channelCount (this (step w op)) = _channelCount (this w))).
Proof.
  split; [vm_compute; discriminate|].
  apply (C3_capacity_invariant sample_module 128 2 (Some 40)
           [OpAdaptChannel 1; OpGetPointer]).
  vm_compute; discriminate.
Defined.

(** C4, as stated, fails: a [maxChannelCount] of 0 is given but falsy, and
    the capacity is the requested channel count, not min(0, 32). *)
Lemma C4_counterexample :
  _maxChannelCount (this (constructor sample_module 128 2 (Some 0))) = 2 /\
  _maxChannelCount (this (constructor sample_module 128 2 (Some 0))) <>
  Z.min 0 MAX_CHANNEL_COUNT.
Proof. vm_compute. split; [reflexivity | discriminate]. Qed.

(** C4, amended: the capacity is min([maxChannelCount], 32) when the argument
    is given and not 0, and the requested channel count when it is absent or
    0; a construction with two channels and a maximum of 40 has capacity 32
    and two active channels. *)
Theorem C4_capacity_resolution (m : EmscriptenModule) (L cc : Z) (mc : option Z) :
  _maxChannelCount (this (constructor m L cc mc)) =
    match mc with
    | Some k => if k =? 0 then cc else Z.min k 32
    | None => cc
    end /\
  _maxChannelCount (this (constructor m L 2 (Some 40))) = 32 /\
  _channelCount (this (constructor m L 2 (Some 40))) = 2.
Proof.
  rewrite !constructor_spec. cbn [this _maxChannelCount _channelCount].
  split; [|split; reflexivity].
  destruct mc as [k|]; [|reflexivity].
  unfold resolve_maxChannelCount, truthy, MAX_CHANNEL_COUNT.
  destruct (k =? 0); reflexivity.
Qed.

(** ** Adaptation *)

(** C7: on an initialized instance, [adaptChannel n] sets the active count to
    [n] when [n] is below the capacity and leaves it as it is otherwise; it
    always returns. *)
Theorem C7_adaptChannel_count (w : World) (n : Z) :
  _isInitialized (this w) = true ->
  (n < _maxChannelCount (this w) ->
   _channelCount (this (snd (adaptChannel n w))) = n) /\
  (_maxChannelCount (this w) <= n ->
   _channelCount (this (snd (adaptChannel n w))) = _channelCount (this w)).
Proof.
  intros _. exec.
  destruct (Z.ltb_spec n (_maxChannelCount (this w))); cbn; split; intros; lia.
Qed.

Lemma C7_adaptChannel_count_witness :
  _isInitialized (this (constructor sample_module 128 2 (Some 4))) = true /\
  (3 < _maxChannelCount (this (constructor sample_module 128 2 (Some 4))) ->
   _channelCount
     (this (snd (adaptChannel 3 (constructor sample_module 128 2 (Some 4))))) = 3) /\
  (_maxChannelCount (this (constructor sample_module 128 2 (Some 4))) <= 3 ->
   _channelCount
     (this (snd (adaptChannel 3 (constructor sample_module 128 2 (Some 4))))) =
   _channelCount (this (constructor sample_module 128 2 (Some 4)))).
Proof.
  split; [reflexivity|].
  apply (C7_adaptChannel_count (constructor sample_module 128 2 (Some 4)) 3).
  reflexivity.
Defined.

(** C9: on an initialized instance, [adaptChannel] makes no call on the
    module and leaves frame length, capacity, base offset, the initialized
    flag and the views as they are. *)
Theorem C9_adaptChannel_frame (w : World) (n : Z) :
  _isInitialized (this w) = true ->
  _module (snd (adaptChannel n w)) = _module w /\
  _length (this (snd (adaptChannel n w))) = _length (this w) /\
  _maxChannelCount (this (snd (adaptChannel n w))) = _maxChannelCount (this w) /\
  _dataPtr (this (snd (adaptChannel n w))) = _dataPtr (this w) /\
  _isInitialized (this (snd (adaptChannel n w))) = _isInitialized (this w) /\
  _channelData (this (snd (adaptChannel n w))) = _channelData (this w).
Proof.
  intros _. apply adaptChannel_frame.
Qed.

Lemma C9_adaptChannel_frame_witness :
  _isInitialized (this (constructor sample_module 128 2 (Some 4))) = true /\
  (_module (snd (adaptChannel 3 (constructor sample_module 128 2 (Some 4)))) =
     _module (constructor sample_module 128 2 (Some 4)) /\
   _length (this (snd (adaptChannel 3 (constructor sample_module 128 2 (Some 4))))) =
     _length (this (constructor sample_module 128 2 (Some 4))) /\
   _maxChannelCount
     (this (snd (adaptChannel 3 (constructor sample_module 128 2 (Some 4))))) =
     _maxChannelCount (this (constructor sample_module 128 2 (Some 4))) /\
   _dataPtr (this (snd (adaptChannel 3 (constructor sample_module 128 2 (Some 4))))) =
     _dataPtr (this (constructor sample_module 128 2 (Some 4))) /\
   _isInitialized
     (this (snd (adaptChannel 3 (constructor sample_module 128 2 (Some 4))))) =
     _isInitialized (this (constructor sample_module 128 2 (Some 4))) /\
   _channelData
     (this (snd (adaptChannel 3 (constructor sample_module 128 2 (Some 4))))) =
     _channelData (this (constructor sample_module 128 2 (Some 4)))).
Proof.
  split; [reflexivity|].
  apply (C9_adaptChannel_frame (constructor sample_module 128 2 (Some 4)) 3).
  reflexivity.
Defined.

(** ** Channel access *)

Lemma getChannelData_index (w : World) (i : Z) :
  fst (getChannelData (Some i) w) =
  if truthy i && (i >=? _channelCount (this w)) then Undefined
  else match array_get (_channelData (this w)) i with
       | Some view => Channel view
       | None => Undefined
       end.
Proof. exec. repeat case_match; reflexivity. Qed.

(** C6, as stated, fails in both directions.  An index below the active
    count has no view when adaptation raised the count above the number
    of views built (count 3, one view, index 2), and index 0 is answered
    with a view when the active count is 0. *)
Lemma C6_counterexample :
  (_isInitialized (this (run [OpAdaptChannel 3] (constructor sample_module 128 1 (Some 4)))) = true /\
   _channelCount (this (run [OpAdaptChannel 3] (constructor sample_module 128 1 (Some 4)))) = 3 /\
   fst (getChannelData (Some 2)
          (run [OpAdaptChannel 3] (constructor sample_module 128 1 (Some 4)))) =
     Undefined) /\
  (_isInitialized (this (run [OpAdaptChannel 0] (constructor sample_module 128 1 (Some 4)))) = true /\
   _channelCount (this (run [OpAdaptChannel 0] (constructor sample_module 128 1 (Some 4)))) = 0 /\
   fst (getChannelData (Some 0)
          (run [OpAdaptChannel 0] (constructor sample_module 128 1 (Some 4)))) =
     Channel {| byteOffset := 1024; elements := 128 |}).
Proof. vm_compute. repeat split. Qed.

(** C6, amended: on an initialized instance constructed with [cc] channels,
    an index [i] with [0 <= i < activeChannelCount] is answered with the view
    of channel [i] when [i < cc] and with [undefined] when no view was built
    there; an index [i >= activeChannelCount] other than 0 is answered with
    [undefined], whatever the capacity. *)
Theorem C6_indexed_channel (m : EmscriptenModule) (L cc : Z) (mc : option Z)
    (ops : list Op) (i : Z) :
  _isInitialized (this (run ops (constructor m L cc mc))) = true ->
  (0 <= i < _channelCount (this (run ops (constructor m L cc mc))) ->
   fst (getChannelData (Some i) (run ops (constructor m L cc mc))) =
   if i <? cc
   then Channel (channel_view m (constructed_ptr m L cc) (L * BYTES_PER_SAMPLE) i)
   else Undefined) /\
  (_channelCount (this (run ops (constructor m L cc mc))) <= i ->
   i <> 0 ->
   fst (getChannelData (Some i) (run ops (constructor m L cc mc))) = Undefined).
Proof.
  intros Hinit.
  pose proof (run_constructor_channelData m L cc mc ops Hinit) as Hdata.
  rewrite getChannelData_index, Hdata, array_get_channel_views.
  split.
  - intros [Hlo Hhi].
    destruct (Z.geb_spec i (_channelCount (this (run ops (constructor m L cc mc)))));
      [lia|].
    rewrite andb_false_r.
    destruct (Z.leb_spec 0 i); [|lia]. cbn.
    destruct (i <? cc); reflexivity.
  - intros Hge Hnz.
    destruct (Z.geb_spec i (_channelCount (this (run ops (constructor m L cc mc)))));
      [|lia].
    unfold truthy. destruct (Z.eqb_spec i 0); [contradiction|]. reflexivity.
Qed.

Lemma C6_indexed_channel_witness :
  _isInitialized
    (this (run [OpAdaptChannel 3] (constructor sample_module 128 2 (Some 4)))) = true /\
  ((0 <= 1 < _channelCount
              (this (run [OpAdaptChannel 3] (constructor sample_module 128 2 (Some 4)))) ->
    fst (getChannelData (Some 1)
           (run [OpAdaptChannel 3] (constructor sample_module 128 2 (Some 4)))) =
    if 1 <? 2
    then Channel (channel_view sample_module (constructed_ptr sample_module 128 2)
                    (128 * BYTES_PER_SAMPLE) 1)
    else Undefined) /\
   (_channelCount
      (this (run [OpAdaptChannel 3] (constructor sample_module 128 2 (Some 4)))) <= 1 ->
    1 <> 0 ->
    fst (getChannelData (Some 1)
           (run [OpAdaptChannel 3] (constructor sample_module 128 2 (Some 4)))) =
    Undefined)).
Proof.
  split; [reflexivity|].
  apply (C6_indexed_channel sample_module 128 2 (Some 4) [OpAdaptChannel 3] 1).
  reflexivity.
Defined.

(** C10: on an initialized instance, index 0 is never checked against the
    active count: [getChannelData(0)] is the entry at position 0 of the
    sequence of views (the view stored there, [undefined] when the sequence
    has no first entry), also after [adaptChannel(0)], which brings the
    active count to 0 when the capacity is positive. *)
Theorem C10_index_zero_unchecked (w : World) :
  _isInitialized (this w) = true ->
  fst (getChannelData (Some 0) w) =
    match _channelData (this w) !! 0%nat with
    | Some (Some view) => Channel view
    | _ => Undefined
    end /\
  fst (getChannelData (Some 0) (snd (adaptChannel 0 w))) =
    match _channelData (this w) !! 0%nat with
    | Some (Some view) => Channel view
    | _ => Undefined
    end /\
  (0 < _maxChannelCount (this w) ->
   _channelCount (this (snd (adaptChannel 0 w))) = 0).
Proof.
  intros Hinit.
  destruct (adaptChannel_frame w 0) as (_ & _ & _ & _ & _ & Hdata).
  rewrite !getChannelData_index, Hdata. cbn.
  unfold array_get. cbn. change (Z.to_nat 0) with 0%nat.
  split; [|split].
  - destruct (_channelData (this w) !! 0%nat) as [[view|]|]; reflexivity.
  - destruct (_channelData (this w) !! 0%nat) as [[view|]|]; reflexivity.
  - intros Hmax. exec.
    destruct (Z.ltb_spec 0 (_maxChannelCount (this w))); [reflexivity|lia].
Qed.

Lemma C10_index_zero_unchecked_witness :
  _isInitialized (this (constructor sample_module 128 2 None)) = true /\
  (fst (getChannelData (Some 0) (constructor sample_module 128 2 None)) =
     match _channelData (this (constructor sample_module 128 2 None)) !! 0%nat with
     | Some (Some view) => Channel view
     | _ => Undefined
     end /\
   fst (getChannelData (Some 0)
          (snd (adaptChannel 0 (constructor sample_module 128 2 None)))) =
     match _channelData (this (constructor sample_module 128 2 None)) !! 0%nat with
     | Some (Some view) => Channel view
     | _ => Undefined
     end /\
   (0 < _maxChannelCount (this (constructor sample_module 128 2 None)) ->
    _channelCount
      (this (snd (adaptChannel 0 (constructor sample_module 128 2 None)))) = 0)).
Proof.
  split; [reflexivity|].
  apply (C10_index_zero_unchecked (constructor sample_module 128 2 None)).
  reflexivity.
Defined.

(** On the instance of the witness the answer is the first view, with an
    active count of 0. *)
Example getChannelData_zero_after_adapt_zero :
  _channelCount
    (this (snd (adaptChannel 0 (constructor sample_module 128 2 None)))) = 0 /\
  fst (getChannelData (Some 0)
         (snd (adaptChannel 0 (constructor sample_module 128 2 None)))) =
  Channel {| byteOffset := 1024; elements := 128 |}.
Proof. vm_compute. split; reflexivity. Qed.

(** ** Release *)

Lemma free_spec (w : World) :
  snd (free w) =
  {| _module := record_call (_module w) (Free (_dataPtr (this w)));
     this := set_channelData [] (set_isInitialized false (this w)) |}.
Proof. reflexivity. Qed.

(** C5, as stated, fails: after [free] both base-address accessors still
    answer the offset that was handed to the module's [_free], and a second
    [free] hands it over again. *)
Lemma C5_counterexample :
  _isInitialized (this (run [OpFree] (constructor sample_module 128 2 None))) = false /\
  freed_ptrs (calls (_module (run [OpFree] (constructor sample_module 128 2 None)))) =
    [1024] /\
  fst (getHeapAddress (run [OpFree] (constructor sample_module 128 2 None))) = 1024 /\
  fst (getPointer (run [OpFree] (constructor sample_module 128 2 None))) = 1024 /\
  freed_ptrs
    (calls (_module (run [OpFree; OpFree] (constructor sample_module 128 2 None)))) =
    [1024; 1024].
Proof. vm_compute. repeat split. Qed.

(** C5, amended: in every state after [free], the getters [length],
    [numberOfChannels] and [maxChannelCount] return [null], the sequence of
    views is empty, so that [getChannelData] returns [undefined] for every
    index and an empty sequence without one, and [getHeapAddress] and
    [getPointer] return the stored base offset; [free] itself hands that
    offset to the module's [_free]. *)
Theorem C5_after_free (w : World) (ops : list Op) (i : Z) :
  _isInitialized (this (run ops (snd (free w)))) = false /\
  fst (get_length (run ops (snd (free w)))) = None /\
  fst (get_numberOfChannels (run ops (snd (free w)))) = None /\
  fst (get_maxChannelCount (run ops (snd (free w)))) = None /\
  fst (getChannelData (Some i) (run ops (snd (free w)))) = Undefined /\
  fst (getChannelData None (run ops (snd (free w)))) = AllChannels [] /\
  fst (getHeapAddress (run ops (snd (free w)))) = _dataPtr (this w) /\
  fst (getPointer (run ops (snd (free w)))) = _dataPtr (this w) /\
  calls (_module (snd (free w))) = calls (_module w) ++ [Free (_dataPtr (this w))].
Proof.
  assert (Hinit : _isInitialized (this (run ops (snd (free w)))) = false).
  { apply run_released. reflexivity. }
  assert (Hdata : _channelData (this (run ops (snd (free w)))) = []).
  { rewrite (run_channelData ops (snd (free w)) []).
    - rewrite Hinit. reflexivity.
    - reflexivity. }
  destruct (run_fixed ops (snd (free w))) as (_ & _ & Hptr & _).
  rewrite getChannelData_index, Hdata, array_get_nil.
  split; [exact Hinit|].
  unfold get_length, get_numberOfChannels, get_maxChannelCount, getChannelData,
    getHeapAddress, getPointer, bind, read, ret.
  rewrite Hinit, Hdata, Hptr. cbn.
  repeat split. destruct (truthy i && _); reflexivity.
Qed.

(** ** The byte ranges of the views *)

(** Inside the memory, below 2^31 and from an offset that is a multiple of
    four, the shift by [BYTES_PER_UNIT] is the division of the byte offset by
    the element size, and [subarray] does not clamp. *)
Lemma channel_view_range (m : EmscriptenModule) (p L i : Z) :
  0 <= L -> 0 <= p -> p mod 4 = 0 -> 0 <= i ->
  p + (i + 1) * (L * 4) <= heap_elements m * 4 ->
  p + (i + 1) * (L * 4) < 2 ^ 31 ->
  channel_view m p (L * BYTES_PER_SAMPLE) i =
  {| byteOffset := p + i * L * 4; elements := L |}.
Proof.
  intros HL Hp Hmod Hi Hheap Hint.
  apply Z.mod_divide in Hmod; [|lia]. destruct Hmod as [q ->].
  unfold channel_view, BYTES_PER_SAMPLE.
  rewrite !sar_unit by nia.
  replace (q * 4 + i * (L * 4)) with ((q + i * L) * 4) by lia.
  replace ((q + i * L) * 4 + L * 4) with ((q + (i + 1) * L) * 4) by lia.
  rewrite !Z.div_mul by lia.
  unfold subarray, relative_index, HEAPF32. cbn [elements byteOffset].
  destruct (Z.ltb_spec (q + i * L) 0); [nia|].
  destruct (Z.ltb_spec (q + (i + 1) * L) 0); [nia|].
  f_equal; nia.
Qed.

(** C8, as stated, fails: an allocator that answers offset 2 gives channel 0
    the bytes from 0 to 4, not from 2 to 6; with one requested channel and a
    capacity of 2 there is no view at index 1; and an offset of 2^31 turns
    negative under [>>], so that channel 0 starts at byte 2^30. *)
Lemma C8_counterexample :
  (_dataPtr (this (constructor unaligned_module 1 1 (Some 2))) = 2 /\
   _maxChannelCount (this (constructor unaligned_module 1 1 (Some 2))) = 2 /\
   array_get (_channelData (this (constructor unaligned_module 1 1 (Some 2)))) 0 =
     Some {| byteOffset := 0; elements := 1 |} /\
   byte_start {| byteOffset := 0; elements := 1 |} <>
     _dataPtr (this (constructor unaligned_module 1 1 (Some 2))) + 0 * 1 * 4 /\
   array_get (_channelData (this (constructor unaligned_module 1 1 (Some 2)))) 1 =
     None) /\
  (_dataPtr (this (constructor large_module 1 1 None)) = 2 ^ 31 /\
   array_get (_channelData (this (constructor large_module 1 1 None))) 0 =
     Some {| byteOffset := 2 ^ 30; elements := 1 |}).
Proof. vm_compute. repeat split; discriminate. Qed.

(** C8, amended: when the frame length is not negative, the base offset is a
    non-negative multiple of four and the allocation lies inside the module's
    memory and below 2^31, the view of each channel [i] with
    [0 <= i < channelCount] covers exactly the bytes from
    [baseOffset + i * length * 4] to [baseOffset + (i + 1) * length * 4], as
    [length] 32-bit floats, and the views at two different indices cover
    disjoint ranges. *)
Theorem C8_view_ranges (m : EmscriptenModule) (L cc : Z) (mc : option Z) (i : Z) :
  0 <= L ->
  0 <= _dataPtr (this (constructor m L cc mc)) ->
  _dataPtr (this (constructor m L cc mc)) mod 4 = 0 ->
  _dataPtr (this (constructor m L cc mc)) + cc * L * 4 <= heap_elements m * 4 ->
  _dataPtr (this (constructor m L cc mc)) + cc * L * 4 < 2 ^ 31 ->
  0 <= i < cc ->
  (exists v : Float32Array,
     array_get (_channelData (this (constructor m L cc mc))) i = Some v /\
     byte_start v = _dataPtr (this (constructor m L cc mc)) + i * L * 4 /\
     byte_end v = _dataPtr (this (constructor m L cc mc)) + (i + 1) * L * 4 /\
     elements v = L) /\
  (forall (j : Z) (vi vj : Float32Array),
     j <> i ->
     array_get (_channelData (this (constructor m L cc mc))) i = Some vi ->
     array_get (_channelData (this (constructor m L cc mc))) j = Some vj ->
     disjoint_views vi vj).
Proof.
  rewrite constructor_spec. cbn [this _dataPtr _channelData].
  set (p := constructed_ptr m L cc).
  intros HL Hp Hmod Hheap Hint Hi.
  assert (Hview : forall k, 0 <= k < cc ->
            array_get (channel_views m p (L * BYTES_PER_SAMPLE) cc) k =
            Some {| byteOffset := p + k * L * 4; elements := L |}).
  { intros k Hk. rewrite array_get_channel_views.
    destruct (Z.leb_spec 0 k); [|lia]. destruct (Z.ltb_spec k cc); [|lia].
    cbn. rewrite channel_view_range by nia. reflexivity. }
  split.
  - exists {| byteOffset := p + i * L * 4; elements := L |}.
    rewrite (Hview i Hi). unfold byte_start, byte_end. cbn.
    repeat split; lia.
  - intros j vi vj Hji Hvi Hvj.
    assert (Hj : 0 <= j < cc).
    { rewrite array_get_channel_views in Hvj.
      destruct (Z.leb_spec 0 j); destruct (Z.ltb_spec j cc); cbn in Hvj;
        try discriminate; lia. }
    rewrite (Hview i Hi) in Hvi. rewrite (Hview j Hj) in Hvj.
    injection Hvi as <-. injection Hvj as <-.
    unfold disjoint_views, byte_start, byte_end. cbn.
    destruct (Z.lt_ge_cases i j); [left|right]; nia.
Qed.

Lemma C8_view_ranges_witness :
  0 <= 128 /\
  0 <= _dataPtr (this (constructor sample_module 128 2 None)) /\
  _dataPtr (this (constructor sample_module 128 2 None)) mod 4 = 0 /\
  _dataPtr (this (constructor sample_module 128 2 None)) + 2 * 128 * 4 <=
    heap_elements sample_module * 4 /\
  _dataPtr (this (constructor sample_module 128 2 None)) + 2 * 128 * 4 < 2 ^ 31 /\
  0 <= 1 < 2 /\
  (exists v : Float32Array,
     array_get (_channelData (this (constructor sample_module 128 2 None))) 1 = Some v /\
     byte_start v = _dataPtr (this (constructor sample_module 128 2 None)) + 1 * 128 * 4 /\
     byte_end v =
       _dataPtr (this (constructor sample_module 128 2 None)) + (1 + 1) * 128 * 4 /\
     elements v = 128) /\
  (forall (j : Z) (vi vj : Float32Array),
     j <> 1 ->
     array_get (_channelData (this (constructor sample_module 128 2 None))) 1 = Some vi ->
     array_get (_channelData (this (constructor sample_module 128 2 None))) j = Some vj ->
     disjoint_views vi vj).
Proof.
  assert (H1 : 0 <= 128) by lia.
  assert (H2 : 0 <= _dataPtr (this (constructor sample_module 128 2 None)))
    by (vm_compute; discriminate).
  assert (H3 : _dataPtr (this (constructor sample_module 128 2 None)) mod 4 = 0)
    by reflexivity.
  assert (H4 : _dataPtr (this (constructor sample_module 128 2 None)) + 2 * 128 * 4 <=
               heap_elements sample_module * 4) by (vm_compute; discriminate).
  assert (H5 : _dataPtr (this (constructor sample_module 128 2 None)) + 2 * 128 * 4 <
               2 ^ 31) by reflexivity.
  assert (H6 : 0 <= 1 < 2) by lia.
  repeat (split; [assumption|]).
  exact (C8_view_ranges sample_module 128 2 None 1 H1 H2 H3 H4 H5 H6).
Defined.

(** * Further properties of the class *)

(** ** The module's call log *)

Lemma step_calls (w : World) (op : Op) :
  calls (_module (step w op)) =
  calls (_module w) ++
  match op with
  | OpFree => [Free (_dataPtr (this w))]
  | _ => []
  end.
Proof.
  destruct op; exec; repeat case_match; cbn; rewrite ?app_nil_r; reflexivity.
Qed.

Lemma free_count_snoc (ops : list Op) (op : Op) :
  free_count (ops ++ [op]) =
  (free_count ops + match op with OpFree => 1 | _ => 0 end)%nat.
Proof.
  induction ops as [|o ops IH]; [destruct op; reflexivity|].
  destruct o; cbn [app free_count]; rewrite IH; reflexivity.
Qed.

(** X1: in every state an instance reaches, released or not, both
    base-address accessors answer the offset the module gave to the
    constructor's request. *)
Theorem X1_base_address_stable (m : EmscriptenModule) (L cc : Z) (mc : option Z)
    (ops : list Op) :
  fst (getHeapAddress (run ops (constructor m L cc mc))) =
    allocator m (calls m) (cc * L * 4) /\
  fst (getPointer (run ops (constructor m L cc mc))) =
    allocator m (calls m) (cc * L * 4).
Proof.
  destruct (run_fixed ops (constructor m L cc mc)) as (_ & _ & Hptr & _).
  unfold getHeapAddress, getPointer, read. cbn [fst].
  rewrite Hptr, constructor_spec. cbn [this _dataPtr].
  unfold constructed_ptr, BYTES_PER_SAMPLE.
  replace (cc * (L * 4)) with (cc * L * 4) by lia. split; reflexivity.
Qed.

(** X4: the calls an instance makes on its module are the allocation of the
    constructor followed by one [_free] of the constructed offset per call of
    [free]: nothing is released that was not allocated, and a repeated [free]
    releases the same offset again. *)
Theorem X4_module_calls (m : EmscriptenModule) (L cc : Z) (mc : option Z)
    (ops : list Op) :
  calls (_module (run ops (constructor m L cc mc))) =
  calls m ++ Malloc (cc * L * 4)
    :: replicate (free_count ops) (Free (allocator m (calls m) (cc * L * 4))).
Proof.
  induction ops as [|op ops IH] using rev_ind.
  - cbn [run fold_left free_count replicate].
    rewrite constructor_spec. cbn [_module record_call calls].
    unfold BYTES_PER_SAMPLE.
    replace (cc * (L * 4)) with (cc * L * 4) by lia. reflexivity.
  - rewrite run_snoc, step_calls, IH, free_count_snoc.
    destruct (run_fixed ops (constructor m L cc mc)) as (_ & _ & Hptr & _).
    rewrite Hptr, constructor_spec. cbn [this _dataPtr].
    unfold constructed_ptr, BYTES_PER_SAMPLE.
    replace (cc * (L * 4)) with (cc * L * 4) by lia.
    destruct op; rewrite ?Nat.add_0_r, ?app_nil_r; try reflexivity.
    rewrite Nat.add_1_r, replicate_S_end, <- app_assoc. reflexivity.
Qed.

(** ** Queries *)

Lemma step_query (w : World) (op : Op) : is_query op = true -> step w op = w.
Proof.
  destruct op; try discriminate; intros _; exec; repeat case_match; reflexivity.
Qed.

(** X3: the getters, [getChannelData] and the base-address accessors change
    neither the instance nor the module, however many of them are called. *)
Theorem X3_queries_pure (ops : list Op) (w : World) :
  forallb is_query ops = true -> run ops w = w.
Proof.
  revert w. induction ops as [|op ops IH]; intros w Hq; [reflexivity|].
  cbn in Hq. apply andb_true_iff in Hq as [Hop Hops].
  cbn [run fold_left]. rewrite (step_query w op Hop). apply IH, Hops.
Qed.

Lemma X3_queries_pure_witness :
  forallb is_query [OpLength; OpGetChannelData (Some 1); OpGetPointer] = true /\
  run [OpLength; OpGetChannelData (Some 1); OpGetPointer]
    (constructor sample_module 128 2 None) =
  constructor sample_module 128 2 None.
Proof.
  split; [reflexivity|].
  apply (X3_queries_pure [OpLength; OpGetChannelData (Some 1); OpGetPointer]
           (constructor sample_module 128 2 None)).
  reflexivity.
Defined.

(** X2: as long as an instance is initialized, [length] answers the frame
    length it was constructed with and [maxChannelCount] the capacity the
    constructor resolved, whatever was called in between; [numberOfChannels]
    answers the current active count, which is the requested one right after
    construction. *)
Theorem X2_getters_initialized (m : EmscriptenModule) (L cc : Z) (mc : option Z)
    (ops : list Op) :
  _isInitialized (this (run ops (constructor m L cc mc))) = true ->
  fst (get_length (run ops (constructor m L cc mc))) = Some L /\
  fst (get_maxChannelCount (run ops (constructor m L cc mc))) =
    Some (resolve_maxChannelCount cc mc) /\
  fst (get_numberOfChannels (run ops (constructor m L cc mc))) =
    Some (_channelCount (this (run ops (constructor m L cc mc)))) /\
  fst (get_numberOfChannels (constructor m L cc mc)) = Some cc.
Proof.
  intros Hinit.
  destruct (run_fixed ops (constructor m L cc mc)) as (Hlen & Hmax & _).
  unfold get_length, get_maxChannelCount, get_numberOfChannels, bind, read, ret.
  rewrite Hinit, Hlen, Hmax, constructor_spec. cbn.
  repeat split; reflexivity.
Qed.

Lemma X2_getters_initialized_witness :
  _isInitialized
    (this (run [OpAdaptChannel 1; OpGetPointer]
             (constructor sample_module 128 2 (Some 40)))) = true /\
  (fst (get_length (run [OpAdaptChannel 1; OpGetPointer]
                      (constructor sample_module 128 2 (Some 40)))) = Some 128 /\
   fst (get_maxChannelCount (run [OpAdaptChannel 1; OpGetPointer]
                               (constructor sample_module 128 2 (Some 40)))) =
     Some (resolve_maxChannelCount 2 (Some 40)) /\
   fst (get_numberOfChannels (run [OpAdaptChannel 1; OpGetPointer]
                                (constructor sample_module 128 2 (Some 40)))) =
     Some (_channelCount (this (run [OpAdaptChannel 1; OpGetPointer]
                                  (constructor sample_module 128 2 (Some 40))))) /\
   fst (get_numberOfChannels (constructor sample_module 128 2 (Some 40))) = Some 2).
Proof.
  split; [reflexivity|].
  apply (X2_getters_initialized sample_module 128 2 (Some 40)
           [OpAdaptChannel 1; OpGetPointer]).
  reflexivity.
Defined.

(** ** Adaptation *)

(** X5: [adaptChannel] is idempotent: a second call with the same count
    changes nothing. *)
Theorem X5_adaptChannel_idempotent (w : World) (n : Z) :
  snd (adaptChannel n (snd (adaptChannel n w))) = snd (adaptChannel n w).
Proof.
  unfold adaptChannel, bind, read, update, ret. cbn.
  destruct (n <? _maxChannelCount (this w)) eqn:Hlt; cbn; rewrite Hlt; reflexivity.
Qed.

Lemma run_channelCount_strict (ops : list Op) (w : World) (c : Z) :
  _channelCount (this w) = c \/ _channelCount (this w) < _maxChannelCount (this w) ->
  _channelCount (this (run ops w)) = c \/
  _channelCount (this (run ops w)) < _maxChannelCount (this w).
Proof.
  intros Hw.
  induction ops as [|op ops IH] using rev_ind; [exact Hw|].
  rewrite run_snoc, step_channelCount.
  destruct (run_fixed ops w) as (_ & Hmax & _).
  destruct op; auto.
  rewrite Hmax.
  destruct (Z.ltb_spec newChannelCount (_maxChannelCount (this w))); auto.
Qed.

(** X11: the guard of [adaptChannel] is strict, so adaptation never brings
    the active count up to the capacity: in every reachable state the active
    count is the one requested at construction or is below the capacity. *)
Theorem X11_active_below_capacity (m : EmscriptenModule) (L cc : Z)
    (mc : option Z) (ops : list Op) :
  _channelCount (this (run ops (constructor m L cc mc))) = cc \/
  _channelCount (this (run ops (constructor m L cc mc))) <
    resolve_maxChannelCount cc mc.
Proof.
  replace (resolve_maxChannelCount cc mc)
    with (_maxChannelCount (this (constructor m L cc mc)))
    by (rewrite constructor_spec; reflexivity).
  apply run_channelCount_strict. left.
  rewrite constructor_spec. reflexivity.
Qed.

(** ** Where the views lie *)

Lemma channel_view_bounds (m : EmscriptenModule) (p cbs i : Z) :
  0 <= heap_elements m ->
  0 <= byte_start (channel_view m p cbs i) /\
  byte_end (channel_view m p cbs i) <= heap_elements m * 4 /\
  0 <= elements (channel_view m p cbs i).
Proof.
  intros Hheap.
  unfold channel_view, subarray, relative_index, byte_start, byte_end, HEAPF32.
  cbn [byteOffset elements].
  repeat case_match; lia.
Qed.

(** X7: whatever offset the allocator answers and whatever the arguments of
    the constructor, no view of an instance reaches outside the module's
    memory: [subarray] clamps both ends. *)
Theorem X7_views_inside_memory (m : EmscriptenModule) (L cc : Z) (mc : option Z)
    (ops : list Op) (i : Z) (v : Float32Array) :
  0 <= heap_elements m ->
  array_get (_channelData (this (run ops (constructor m L cc mc)))) i = Some v ->
  0 <= byte_start v /\ byte_end v <= heap_elements m * 4 /\ 0 <= elements v.
Proof.
  intros Hheap Hget.
  rewrite (run_channelData ops (constructor m L cc mc)
             (channel_views m (constructed_ptr m L cc) (L * BYTES_PER_SAMPLE) cc))
    in Hget by (rewrite constructor_spec; reflexivity).
  destruct (_isInitialized (this (run ops (constructor m L cc mc)))).
  - rewrite array_get_channel_views in Hget.
    destruct ((0 <=? i) && (i <? cc)); [|discriminate].
    injection Hget as <-. apply channel_view_bounds, Hheap.
  - rewrite array_get_nil in Hget. discriminate.
Qed.

Lemma X7_views_inside_memory_witness :
  0 <= heap_elements large_module /\
  array_get (_channelData (this (run [OpAdaptChannel 0]
                                   (constructor large_module 1 1 None)))) 0 =
    Some {| byteOffset := 2 ^ 30; elements := 1 |} /\
  (0 <= byte_start {| byteOffset := 2 ^ 30; elements := 1 |} /\
   byte_end {| byteOffset := 2 ^ 30; elements := 1 |} <=
     heap_elements large_module * 4 /\
   0 <= elements {| byteOffset := 2 ^ 30; elements := 1 |}).
Proof.
  assert (H1 : 0 <= heap_elements large_module) by (vm_compute; discriminate).
  assert (H2 : array_get (_channelData (this (run [OpAdaptChannel 0]
                            (constructor large_module 1 1 None)))) 0 =
               Some {| byteOffset := 2 ^ 30; elements := 1 |}) by reflexivity.
  split; [exact H1|]. split; [exact H2|].
  exact (X7_views_inside_memory large_module 1 1 None [OpAdaptChannel 0] 0
           {| byteOffset := 2 ^ 30; elements := 1 |} H1 H2).
Defined.

(** Inside the memory and below 2^31, the shift by [BYTES_PER_UNIT] rounds
    the byte offset down to a multiple of four. *)
Lemma channel_view_floor (m : EmscriptenModule) (p L i : Z) :
  0 <= L -> 0 <= p -> 0 <= i ->
  p + (i + 1) * (L * 4) <= heap_elements m * 4 ->
  p + (i + 1) * (L * 4) < 2 ^ 31 ->
  channel_view m p (L * BYTES_PER_SAMPLE) i =
  {| byteOffset := p - p mod 4 + i * L * 4; elements := L |}.
Proof.
  intros HL Hp Hi Hheap Hint.
  unfold channel_view, BYTES_PER_SAMPLE.
  rewrite !sar_unit by nia.
  replace (p + i * (L * 4) + L * 4) with (p + ((i + 1) * L) * 4) by lia.
  replace (p + i * (L * 4)) with (p + (i * L) * 4) by lia.
  rewrite !Z.div_add by lia.
  pose proof (Z.div_mod p 4 ltac:(lia)) as Hdiv.
  pose proof (Z.mod_pos_bound p 4 ltac:(lia)) as Hmod.
  unfold subarray, relative_index, HEAPF32. cbn [elements byteOffset].
  destruct (Z.ltb_spec (p / 4 + i * L) 0); [nia|].
  destruct (Z.ltb_spec (p / 4 + (i + 1) * L) 0); [nia|].
  f_equal; nia.
Qed.

Lemma channel_views_floor (m : EmscriptenModule) (p L cc : Z) :
  0 <= L -> 0 <= p ->
  p + cc * L * 4 <= heap_elements m * 4 ->
  p + cc * L * 4 < 2 ^ 31 ->
  channel_views m p (L * BYTES_PER_SAMPLE) cc =
  (fun k => Some {| byteOffset := p - p mod 4 + k * L * 4; elements := L |})
    <$> seqZ 0 cc.
Proof.
  intros HL Hp Hheap Hint. unfold channel_views.
  apply Forall_fmap_ext_1, list.Forall_forall.
  intros k Hk. apply elem_of_seqZ in Hk.
  rewrite channel_view_floor by nia. reflexivity.
Qed.

(** X8: when the allocation lies inside the module's memory and below 2^31,
    the view of channel [i] has exactly [length] elements and starts at the
    base offset rounded down to a multiple of four, plus [i * length * 4]: an
    offset that is not a multiple of four shifts every view towards lower
    addresses by its remainder. *)
Theorem X8_view_rounds_down (m : EmscriptenModule) (L cc : Z) (mc : option Z)
    (i : Z) :
  0 <= L ->
  0 <= _dataPtr (this (constructor m L cc mc)) ->
  _dataPtr (this (constructor m L cc mc)) + cc * L * 4 <= heap_elements m * 4 ->
  _dataPtr (this (constructor m L cc mc)) + cc * L * 4 < 2 ^ 31 ->
  0 <= i < cc ->
  array_get (_channelData (this (constructor m L cc mc))) i =
  Some {| byteOffset :=
            _dataPtr (this (constructor m L cc mc))
            - _dataPtr (this (constructor m L cc mc)) mod 4 + i * L * 4;
          elements := L |}.
Proof.
  rewrite constructor_spec. cbn [this _dataPtr _channelData].
  intros HL Hp Hheap Hint Hi.
  rewrite channel_views_floor by assumption.
  unfold array_get. destruct (Z.ltb_spec i 0); [lia|].
  rewrite list_lookup_fmap, (lookup_seqZ_lt 0 cc (Z.to_nat i)) by lia.
  cbn. do 3 f_equal. lia.
Qed.

Lemma X8_view_rounds_down_witness :
  0 <= 1 /\
  0 <= _dataPtr (this (constructor unaligned_module 1 2 None)) /\
  _dataPtr (this (constructor unaligned_module 1 2 None)) + 2 * 1 * 4 <=
    heap_elements unaligned_module * 4 /\
  _dataPtr (this (constructor unaligned_module 1 2 None)) + 2 * 1 * 4 < 2 ^ 31 /\
  0 <= 1 < 2 /\
  array_get (_channelData (this (constructor unaligned_module 1 2 None))) 1 =
  Some {| byteOffset :=
            _dataPtr (this (constructor unaligned_module 1 2 None))
            - _dataPtr (this (constructor unaligned_module 1 2 None)) mod 4
            + 1 * 1 * 4;
          elements := 1 |}.
Proof.
  assert (H1 : 0 <= 1) by lia.
  assert (H2 : 0 <= _dataPtr (this (constructor unaligned_module 1 2 None)))
    by (vm_compute; discriminate).
  assert (H3 : _dataPtr (this (constructor unaligned_module 1 2 None)) + 2 * 1 * 4 <=
               heap_elements unaligned_module * 4) by (vm_compute; discriminate).
  assert (H4 : _dataPtr (this (constructor unaligned_module 1 2 None)) + 2 * 1 * 4 <
               2 ^ 31) by reflexivity.
  assert (H5 : 0 <= 1 < 2) by lia.
  repeat (split; [assumption|]).
  exact (X8_view_rounds_down unaligned_module 1 2 None 1 H1 H2 H3 H4 H5).
Defined.

Lemma total_view_bytes_uniform (f : Z -> Z) (L : Z) (l : list Z) :
  total_view_bytes
    ((fun k => Some {| byteOffset := f k; elements := L |}) <$> l) =
  Z.of_nat (length l) * (L * 4).
Proof.
  induction l as [|k l IH]; [reflexivity|].
  cbn [fmap list_fmap total_view_bytes elements length].
  change (list_fmap _ _ ?g l) with (g <$> l). rewrite IH. lia.
Qed.

(** X6: when the allocation lies inside the module's memory and below 2^31,
    the views together cover as many bytes as the constructor requested:
    [channelCount * length * 4]. *)
Theorem X6_views_cover_allocation (m : EmscriptenModule) (L cc : Z)
    (mc : option Z) :
  0 <= L -> 0 <= cc ->
  0 <= _dataPtr (this (constructor m L cc mc)) ->
  _dataPtr (this (constructor m L cc mc)) + cc * L * 4 <= heap_elements m * 4 ->
  _dataPtr (this (constructor m L cc mc)) + cc * L * 4 < 2 ^ 31 ->
  total_view_bytes (_channelData (this (constructor m L cc mc))) = cc * L * 4 /\
  malloc_sizes (calls (_module (constructor m L cc mc))) =
    malloc_sizes (calls m) ++
    [total_view_bytes (_channelData (this (constructor m L cc mc)))].
Proof.
  rewrite constructor_spec. cbn [this _module _dataPtr _channelData].
  intros HL Hcc Hp Hheap Hint.
  rewrite channel_views_floor by assumption.
  rewrite total_view_bytes_uniform, length_seqZ.
  split; [lia|].
  cbn [record_call calls]. unfold malloc_sizes. rewrite omap_app. cbn.
  unfold BYTES_PER_SAMPLE. do 2 f_equal. lia.
Qed.

Lemma X6_views_cover_allocation_witness :
  0 <= 128 /\ 0 <= 2 /\
  0 <= _dataPtr (this (constructor sample_module 128 2 (Some 40))) /\
  _dataPtr (this (constructor sample_module 128 2 (Some 40))) + 2 * 128 * 4 <=
    heap_elements sample_module * 4 /\
  _dataPtr (this (constructor sample_module 128 2 (Some 40))) + 2 * 128 * 4 < 2 ^ 31 /\
  total_view_bytes (_channelData (this (constructor sample_module 128 2 (Some 40)))) =
    2 * 128 * 4 /\
  malloc_sizes (calls (_module (constructor sample_module 128 2 (Some 40)))) =
    malloc_sizes (calls sample_module) ++
    [total_view_bytes (_channelData (this (constructor sample_module 128 2 (Some 40))))].
Proof.
  assert (H1 : 0 <= 128) by lia.
  assert (H2 : 0 <= 2) by lia.
  assert (H3 : 0 <= _dataPtr (this (constructor sample_module 128 2 (Some 40))))
    by (vm_compute; discriminate).
  assert (H4 : _dataPtr (this (constructor sample_module 128 2 (Some 40))) + 2 * 128 * 4 <=
               heap_elements sample_module * 4) by (vm_compute; discriminate).
  assert (H5 : _dataPtr (this (constructor sample_module 128 2 (Some 40))) + 2 * 128 * 4 <
               2 ^ 31) by reflexivity.
  repeat (split; [assumption|]).
  exact (X6_views_cover_allocation sample_module 128 2 (Some 40) H1 H2 H3 H4 H5).
Defined.

(** ** Indices without a view *)

(** X9: in any state, an index that is negative or not below the number of
    views held is answered with [undefined], whatever the active count. *)
Theorem X9_index_outside_views (w : World) (i : Z) :
  i < 0 \/ Z.of_nat (length (_channelData (this w))) <= i ->
  fst (getChannelData (Some i) w) = Undefined.
Proof.
  intros Hout. rewrite getChannelData_index.
  destruct (truthy i && (i >=? _channelCount (this w))); [reflexivity|].
  unfold array_get.
  destruct (Z.ltb_spec i 0) as [|Hpos]; [reflexivity|].
  destruct Hout as [Hneg|Hlen]; [lia|].
  rewrite lookup_ge_None_2 by lia. reflexivity.
Qed.

Lemma X9_index_outside_views_witness :
  (-1 < 0 \/
   Z.of_nat (length (_channelData (this (constructor sample_module 128 2 (Some 40)))))
     <= -1) /\
  fst (getChannelData (Some (-1)) (constructor sample_module 128 2 (Some 40))) =
  Undefined.
Proof.
  assert (H : -1 < 0 \/
              Z.of_nat (length (_channelData
                                  (this (constructor sample_module 128 2 (Some 40)))))
                <= -1) by (left; reflexivity).
  split; [exact H|].
  exact (X9_index_outside_views (constructor sample_module 128 2 (Some 40)) (-1) H).
Defined.

Lemma run_channelCount_bound (ops : list Op) (w : World) (b : Z) :
  _channelCount (this w) <= b ->
  _maxChannelCount (this w) <= b ->
  _channelCount (this (run ops w)) <= b.
Proof.
  intros Hc Hm.
  induction ops as [|op ops IH] using rev_ind; [exact Hc|].
  rewrite run_snoc, step_channelCount.
  destruct (run_fixed ops w) as (_ & Hmax & _).
  destruct op; auto.
  rewrite Hmax.
  destruct (Z.ltb_spec newChannelCount (_maxChannelCount (this w))); lia.
Qed.

(** X10: when the capacity the constructor resolves does not exceed the
    requested channel count (as it does without [maxChannelCount]), the
    active count never exceeds the number of views, and an initialized
    instance answers every index [i] with [0 <= i < activeChannelCount] with
    the view of channel [i]. *)
Theorem X10_active_index_has_view (m : EmscriptenModule) (L cc : Z)
    (mc : option Z) (ops : list Op) (i : Z) :
  resolve_maxChannelCount cc mc <= cc ->
  _isInitialized (this (run ops (constructor m L cc mc))) = true ->
  0 <= i < _channelCount (this (run ops (constructor m L cc mc))) ->
  _channelCount (this (run ops (constructor m L cc mc))) <= cc /\
  fst (getChannelData (Some i) (run ops (constructor m L cc mc))) =
  Channel (channel_view m (allocator m (calls m) (cc * (L * BYTES_PER_SAMPLE)))
             (L * BYTES_PER_SAMPLE) i).
Proof.
  intros Hcap Hinit [Hlo Hhi].
  assert (Hle : _channelCount (this (run ops (constructor m L cc mc))) <= cc).
  { apply run_channelCount_bound; rewrite constructor_spec; cbn; [lia|exact Hcap]. }
  split; [exact Hle|].
  rewrite getChannelData_index.
  rewrite (run_constructor_channelData m L cc mc ops Hinit).
  rewrite array_get_channel_views.
  destruct (Z.geb_spec i (_channelCount (this (run ops (constructor m L cc mc)))));
    [lia|].
  rewrite andb_false_r.
  destruct (Z.leb_spec 0 i); [|lia]. destruct (Z.ltb_spec i cc); [|lia].
  reflexivity.
Qed.

Lemma X10_active_index_has_view_witness :
  resolve_maxChannelCount 2 None <= 2 /\
  _isInitialized
    (this (run [OpAdaptChannel 1; OpLength] (constructor sample_module 128 2 None))) =
    true /\
  0 <= 0 < _channelCount
             (this (run [OpAdaptChannel 1; OpLength]
                      (constructor sample_module 128 2 None))) /\
  _channelCount
    (this (run [OpAdaptChannel 1; OpLength] (constructor sample_module 128 2 None)))
    <= 2 /\
  fst (getChannelData (Some 0)
         (run [OpAdaptChannel 1; OpLength] (constructor sample_module 128 2 None))) =
  Channel (channel_view sample_module
             (allocator sample_module (calls sample_module)
                (2 * (128 * BYTES_PER_SAMPLE)))
             (128 * BYTES_PER_SAMPLE) 0).
Proof.
  assert (H1 : resolve_maxChannelCount 2 None <= 2) by (vm_compute; discriminate).
  assert (H2 : _isInitialized
                 (this (run [OpAdaptChannel 1; OpLength]
                          (constructor sample_module 128 2 None))) = true)
    by reflexivity.
  assert (H3 : 0 <= 0 < _channelCount
                          (this (run [OpAdaptChannel 1; OpLength]
                                   (constructor sample_module 128 2 None))))
    by (vm_compute; split; [discriminate|reflexivity]).
  repeat (split; [assumption|]).
  exact (X10_active_index_has_view sample_module 128 2 None
           [OpAdaptChannel 1; OpLength] 0 H1 H2 H3).
Defined.
